(** * The network fuzzing harness of 389-ds-base: [ldap/servers/slapd/fuzzer.c]

    The file holds three functions and three global variables.  [fuzzServer]
    relays one driver-generated input to the server under test over a
    TCP/IPv6 connection; [launchFuzzer2] is the body of the background thread
    that runs the libFuzzer driver; [launchFuzzer] is the startup hook that
    creates that thread.

    Every statement of the three functions is a call into libc, the kernel or
    libFuzzer.  The embedding therefore separates the program, written in a
    small monad whose only effect is [syscall], from the platform that
    answers the calls, an arbitrary handler [OS W] over an arbitrary world
    [W].  Theorems about the program quantify over every platform; a concrete
    loopback host, [Posix.os], is given to run the program on. *)

From Stdlib Require Import ZArith Lia String Ascii.
From Stdlib.Strings Require Import Byte.
From stdpp Require Import base option list gmap strings pretty.

Local Open Scope Z_scope.

(** ** Program memory *)

(** Addresses the program can name: the null pointer, the three globals, and
    memory owned by the fuzzing driver (the input buffers). *)
Inductive ptr : Type :=
| NULL
| addr_args_size
| addr_args_ptr
| addr_arg_array (i : nat)
| addr_heap (a : Z).

(** The functions whose address is taken. *)
Inductive fnptr : Type :=
| fn_fuzzServer
| fn_launchFuzzer2.

(** An object of automatic storage is indeterminate until it is assigned. *)
Inductive cell (A : Type) : Type :=
| Undef
| Init (a : A).
Arguments Undef {A}.
Arguments Init {A} a.

Definition cell_of_option {A : Type} (o : option A) : cell A :=
  match o with
  | Some a => Init a
  | None => Undef
  end.

Definition initialised {A : Type} (c : cell A) : bool :=
  match c with
  | Init _ => true
  | Undef => false
  end.

(** The globals: [char *arg_array[]] (an entry is a string literal or the
    null pointer), [char **args_ptr] and [int args_size]. *)
Record globals : Type := Globals {
  arg_array : list (option string);
  args_ptr : ptr;
  args_size : Z
}.

Record state : Type := State {
  glob : globals;
  heap : gmap Z byte
}.

(** The static initialisers of the three globals. *)
Definition init_globals : globals :=
  {| arg_array := [Some "0"%string; Some "corpus"%string;
                   Some "-max_len=60000"%string; Some "-detect_leaks=0"%string;
                   Some "-len_control=20"%string; None];
     args_ptr := addr_arg_array 0;
     args_size := 5 |}.

(** The bound libFuzzer puts on the length of an input, as configured by the
    third entry of [arg_array]. *)
Definition max_len : Z := 60000.

(** Reading [n] bytes at a pointer; [None] when the range is not readable. *)
Fixpoint load_from (h : gmap Z byte) (a : Z) (n : nat) : option (list byte) :=
  match n with
  | O => Some []
  | S n' =>
      match h !! a, load_from h (a + 1) n' with
      | Some b, Some bs => Some (b :: bs)
      | _, _ => None
      end
  end.

Definition load_bytes (h : gmap Z byte) (p : ptr) (n : Z) : option (list byte) :=
  match p with
  | addr_heap a => load_from h a (Z.to_nat n)
  | _ => if decide (n <= 0) then Some [] else None
  end.

(** Writing a byte sequence at an address (what the driver does when it
    prepares an input). *)
Fixpoint store_bytes (h : gmap Z byte) (a : Z) (bs : list byte) : gmap Z byte :=
  match bs with
  | [] => h
  | b :: bs' => <[a := b]> (store_bytes h (a + 1) bs')
  end.

(** Dereferencing [int *] and [char ***] pointers into the globals. *)
Definition load_int (g : globals) (p : ptr) : option Z :=
  match p with
  | addr_args_size => Some (args_size g)
  | _ => None
  end.

Definition load_argv (g : globals) (p : ptr) : option ptr :=
  match p with
  | addr_args_ptr => Some (args_ptr g)
  | _ => None
  end.

(** The [n] entries of the [char *] array that starts at [p]. *)
Definition load_strings (g : globals) (p : ptr) (n : Z) : option (list (option string)) :=
  match p with
  | addr_arg_array i =>
      let l := take (Z.to_nat n) (drop i (arg_array g)) in
      if decide (length l = Z.to_nat n) then Some l else None
  | _ => None
  end.

(** ** The platform interface *)

Inductive sa_family : Type := AF_INET | AF_INET6.
Inductive sock_type : Type := SOCK_STREAM | SOCK_DGRAM.
Inductive stream : Type := stdout | stderr.

Definition in6_addr : Type := list byte.

(** [struct sockaddr_in6], field by field. *)
Record sockaddr_in6 : Type := Sockaddr_in6 {
  sin6_family : cell sa_family;
  sin6_port : cell Z;
  sin6_flowinfo : cell Z;
  sin6_addr : cell in6_addr;
  sin6_scope_id : cell Z
}.

(** A [struct sockaddr_in6] of automatic storage as declared, and the
    assignments to its fields.  [store_sin6_addr] is the effect of a callee
    that was handed [&server_addr.sin6_addr] and stored [dst] there, or
    stored nothing. *)
Definition sockaddr_in6_undef : sockaddr_in6 :=
  {| sin6_family := Undef; sin6_port := Undef; sin6_flowinfo := Undef;
     sin6_addr := Undef; sin6_scope_id := Undef |}.

Definition set_sin6_family (sa : sockaddr_in6) (f : sa_family) : sockaddr_in6 :=
  {| sin6_family := Init f; sin6_port := sin6_port sa;
     sin6_flowinfo := sin6_flowinfo sa; sin6_addr := sin6_addr sa;
     sin6_scope_id := sin6_scope_id sa |}.

Definition set_sin6_port (sa : sockaddr_in6) (p : Z) : sockaddr_in6 :=
  {| sin6_family := sin6_family sa; sin6_port := Init p;
     sin6_flowinfo := sin6_flowinfo sa; sin6_addr := sin6_addr sa;
     sin6_scope_id := sin6_scope_id sa |}.

Definition store_sin6_addr (sa : sockaddr_in6) (dst : option in6_addr) : sockaddr_in6 :=
  match dst with
  | Some a =>
      {| sin6_family := sin6_family sa; sin6_port := sin6_port sa;
         sin6_flowinfo := sin6_flowinfo sa; sin6_addr := Init a;
         sin6_scope_id := sin6_scope_id sa |}
  | None => sa
  end.

(** [sizeof (struct sockaddr_in6)]: 2 + 2 + 4 + 16 + 4 bytes. *)
Definition sizeof_sockaddr_in6 : Z := 2 + 2 + 4 + 16 + 4.

(** The external calls the file makes, with their arguments.  A pointer to a
    local object that the callee only reads is passed as the object
    ([Connect]); an output pointer to a local object appears in the answer
    instead ([Inet_pton], [Pthread_create]). *)
Inductive call : Type :=
| Socket (domain : sa_family) (type : sock_type) (protocol : Z)
| Inet_pton (af : sa_family) (src : string)
| Connect (sockfd : Z) (addr : sockaddr_in6) (addrlen : Z)
| Send (sockfd : Z) (buf : ptr) (len : Z) (flags : Z)
| Usleep (usec : Z)
| Close (fd : Z)
| Pthread_create (attr : ptr) (start_routine : fnptr) (arg : ptr)
| Fprintf (s : stream) (format : string)
| RunDriver (argc : ptr) (argv : ptr) (UserCb : fnptr).

(** What a call answers: its integer return value, and for the two calls
    with an output pointer the object stored through it, if any. *)
Definition ret_type (c : call) : Type :=
  match c with
  | Inet_pton _ _ => (Z * option in6_addr)%type
  | Pthread_create _ _ _ => (Z * option Z)%type
  | _ => Z
  end.

Definition ret_code (c : call) : ret_type c -> Z :=
  match c as c0 return ret_type c0 -> Z with
  | Inet_pton _ _ => fst
  | Pthread_create _ _ _ => fst
  | _ => fun r => r
  end.

(** One entry of the log: a call and its answer. *)
Definition event : Type := sigT ret_type.
Definition Ev (c : call) (r : ret_type c) : event := existT c r.
Definition ev_call (e : event) : call := projT1 e.
Definition ev_code (e : event) : Z := ret_code (projT1 e) (projT2 e).

(** A platform: the byte order of the host, and the answer to each call,
    which may depend on the program's memory (read through the pointers it is
    given) and on the world, and changes the world. *)
Record OS (W : Type) : Type := MkOS {
  little_endian : bool;
  sys : forall c : call, state -> W -> ret_type c * W
}.
Arguments little_endian {W} _.
Arguments sys {W} _ _ _ _.

(** ** The monad of the program *)

Record machine (W : Type) : Type := Machine {
  mem : state;
  world : W;
  trace : list event
}.
Arguments Machine {W} _ _ _.
Arguments mem {W} _.
Arguments world {W} _.
Arguments trace {W} _.

Definition M (W A : Type) : Type := machine W -> A * machine W.

Definition ret {W A : Type} (a : A) : M W A := fun m => (a, m).

Definition bind {W A B : Type} (x : M W A) (f : A -> M W B) : M W B :=
  fun m => let (a, m') := x m in f a m'.

Declare Scope prog_scope.
Delimit Scope prog_scope with prog.
Notation "x <- c1 ;; c2" := (bind c1 (fun x => c2))
  (at level 100, c1 at next level, right associativity) : prog_scope.
Notation "c1 ;; c2" := (bind c1 (fun _ => c2))
  (at level 100, right associativity) : prog_scope.

Definition syscall {W : Type} (os : OS W) (c : call) : M W (ret_type c) :=
  fun m =>
    let (r, w') := sys os c (mem m) (world m) in
    (r, {| mem := mem m; world := w'; trace := trace m ++ [Ev c r] |}).

(** [htons] and [ntohs] of libc: the identity on a big-endian host, a swap of
    the two bytes of the 16-bit value on a little-endian one. *)
Definition bswap16 (x : Z) : Z :=
  Z.lor (Z.shiftl (Z.land x 255) 8) (Z.land (Z.shiftr x 8) 255).

Definition htons (le : bool) (hostshort : Z) : Z :=
  let x := hostshort mod 2 ^ 16 in
  if le then bswap16 x else x.

Definition ntohs (le : bool) (netshort : Z) : Z := htons le netshort.

(** ** The program *)

Section Program.
Context {W : Type} (os : OS W).
Local Open Scope prog_scope.

Definition socket (domain : sa_family) (type : sock_type) (protocol : Z) : M W Z :=
  syscall os (Socket domain type protocol).
Definition inet_pton (af : sa_family) (src : string) : M W (Z * option in6_addr) :=
  syscall os (Inet_pton af src).
Definition connect (sockfd : Z) (addr : sockaddr_in6) (addrlen : Z) : M W Z :=
  syscall os (Connect sockfd addr addrlen).
Definition send (sockfd : Z) (buf : ptr) (len flags : Z) : M W Z :=
  syscall os (Send sockfd buf len flags).
Definition usleep (usec : Z) : M W Z := syscall os (Usleep usec).
Definition close (fd : Z) : M W Z := syscall os (Close fd).
Definition pthread_create (attr : ptr) (start_routine : fnptr) (arg : ptr)
  : M W (Z * option Z) :=
  syscall os (Pthread_create attr start_routine arg).
Definition fprintf (s : stream) (format : string) : M W Z :=
  syscall os (Fprintf s format).
Definition LLVMFuzzerRunDriver (argc argv : ptr) (UserCb : fnptr) : M W Z :=
  syscall os (RunDriver argc argv UserCb).

Definition fuzzServer (Data : ptr) (Size : Z) : M W Z :=
  let ip := "::1"%string in
  let port := 5555 in
  let server_addr := sockaddr_in6_undef in
  sockfd <- socket AF_INET6 SOCK_STREAM 0 ;;
  let server_addr := set_sin6_family server_addr AF_INET6 in
  let server_addr := set_sin6_port server_addr (htons (little_endian os) port) in
  r <- inet_pton AF_INET6 ip ;;
  let server_addr := store_sin6_addr server_addr (snd r) in
  connect sockfd server_addr sizeof_sockaddr_in6 ;;
  send sockfd Data Size 0 ;;
  usleep 1000 ;;
  close sockfd ;;
  ret 1.

(** The function has no [return]: its value is indeterminate. *)
Definition launchFuzzer2 (param : ptr) : M W (cell ptr) :=
  usleep 15000 ;;
  LLVMFuzzerRunDriver addr_args_size addr_args_ptr fn_fuzzServer ;;
  ret Undef.

(** [threadID] is a local that is never read: what [pthread_create] stores
    in it is dropped with its return value. *)
Definition launchFuzzer : M W unit :=
  pthread_create NULL fn_launchFuzzer2 NULL ;;
  fprintf stderr ("fuzzing launched" ++ String "010"%char EmptyString) ;;
  ret tt.

End Program.

(** ** Schedules

    The three functions run in two threads and are called by libFuzzer; what
    the process does is taken at the grain of whole invocations: a sequence
    of them, interleaved with the driver writing the next input into its own
    buffer. *)
Inductive action : Type :=
| act_launchFuzzer
| act_launchFuzzer2 (param : ptr)
| act_fuzzServer (Data : ptr) (Size : Z)
| act_driver_write (a : Z) (bs : list byte).

Definition driver_write {W : Type} (a : Z) (bs : list byte) : M W unit :=
  fun m =>
    (tt, {| mem := {| glob := glob (mem m);
                      heap := store_bytes (heap (mem m)) a bs |};
            world := world m;
            trace := trace m |}).

Definition perform {W : Type} (os : OS W) (a : action) : M W unit :=
  match a with
  | act_launchFuzzer => launchFuzzer os
  | act_launchFuzzer2 param => bind (launchFuzzer2 os param) (fun _ => ret tt)
  | act_fuzzServer Data Size => bind (fuzzServer os Data Size) (fun _ => ret tt)
  | act_driver_write a bs => driver_write a bs
  end.

Fixpoint perform_all {W : Type} (os : OS W) (l : list action) : M W unit :=
  match l with
  | [] => ret tt
  | a :: l' => bind (perform os a) (fun _ => perform_all os l')
  end.

(** ** Observations on a run *)

(** The log entries a computation adds. *)
Definition emitted {W A : Type} (p : M W A) (m : machine W) : list event :=
  drop (length (trace m)) (trace (snd (p m))).

(** The byte sequences handed to [send], one per [Send] entry: the [len]
    bytes at [buf]. *)
Definition sent (h : gmap Z byte) (evs : list event) : list (option (list byte)) :=
  omap (fun e => match ev_call e with
                 | Send _ buf len _ => Some (load_bytes h buf len)
                 | _ => None
                 end) evs.

(** What the driver finds behind the two pointers it is given: the argument
    count and that many argument strings. *)
Definition driver_args (g : globals) (c : call) : option (Z * list (option string)) :=
  match c with
  | RunDriver argc argv _ =>
      match load_int g argc, load_argv g argv with
      | Some n, Some p =>
          match load_strings g p n with
          | Some l => Some (n, l)
          | None => None
          end
      | _, _ => None
      end
  | _ => None
  end.

(** The driver's view at each [RunDriver] entry of a log. *)
Definition driver_views (g : globals) (evs : list event)
  : list (option (Z * list (option string))) :=
  omap (fun e => match ev_call e with
                 | RunDriver _ _ _ => Some (driver_args g (ev_call e))
                 | _ => None
                 end) evs.

Definition msec (n : Z) : Z := n * 1000.

(** The IPv6 loopback address [::1] in binary form. *)
Definition in6addr_loopback : in6_addr :=
  [x00; x00; x00; x00; x00; x00; x00; x00;
   x00; x00; x00; x00; x00; x00; x00; x01].

Definition in6addr_any : in6_addr := replicate 16 x00.

(** ** Signals

    A call may also raise a signal whose default action ends the process;
    the call then never returns to the program.  A platform with signals is
    a platform together with the signal, if any, that each call raises.  Its
    world carries the fate of the process: once a signal has ended it,
    nothing the program would have gone on to do reaches the world any
    more, and the entries the log gets after that point stand for calls
    that did not take place. *)
Inductive signal : Type := SIGPIPE.

Inductive outcome (A : Type) : Type :=
| Returned (a : A)
| Killed (s : signal).
Arguments Returned {A} a.
Arguments Killed {A} s.

Definition with_signals {W : Type} (os : OS W)
    (raises : call -> state -> W -> option signal) : OS (W * option signal) :=
  {| little_endian := little_endian os;
     sys := fun c st ws =>
       match ws.2 with
       | Some s => ((sys os c st ws.1).1, ws)
       | None => ((sys os c st ws.1).1, ((sys os c st ws.1).2, raises c st ws.1))
       end |}.

(** A machine whose process is alive, and how a run from it ended. *)
Definition started {W : Type} (m : machine W) : machine (W * option signal) :=
  {| mem := mem m; world := (world m, None); trace := trace m |}.

Definition outcome_of {W A : Type} (r : A * machine (W * option signal)) : outcome A :=
  match (world r.2).2 with
  | Some s => Killed s
  | None => Returned r.1
  end.

(** ** A reference platform: one host, one loopback listener

    A small world to run the program on.  It has a table of open sockets, at
    most one server listening on an IPv6 address and port, the connections
    that server has accepted with the bytes its handler read on each, a
    bounded thread table, the output streams, and the configurations with
    which the fuzzing driver was started.  Descriptors are handed out in
    increasing order and are not reused.  The answers [answer] gives are the
    return values of the calls; the signal that comes with one of them is
    given apart, by [raises]. *)
Module Posix.

#[global] Instance byte_eq_dec : EqDecision byte.
Proof.
  intros x y. destruct (Byte.eqb x y) eqn:E.
  - left. by apply Byte.byte_dec_bl.
  - right. intros ->. rewrite Byte.byte_dec_lb in E; done.
Defined.

#[global] Instance sa_family_eq_dec : EqDecision sa_family.
Proof. solve_decision. Defined.
#[global] Instance sock_type_eq_dec : EqDecision sock_type.
Proof. solve_decision. Defined.
#[global] Instance stream_eq_dec : EqDecision stream.
Proof. solve_decision. Defined.

(** A connection as the server sees it: the bytes read so far, and whether
    the peer has closed its end. *)
Record conn : Type := Conn {
  rx : list byte;
  eof : bool
}.

Record sysstate : Type := SysState {
  listener : option (in6_addr * Z);
  next_fd : Z;
  fd_limit : Z;
  socks : gmap Z (option nat);
  accepted : list conn;
  threads : list (fnptr * ptr);
  thread_limit : nat;
  output : list (stream * string);
  driver_runs : list (option (Z * list (option string)) * fnptr);
  clock : Z
}.

Definition set_socks (w : sysstate) (next : Z) (s : gmap Z (option nat))
    (acc : list conn) : sysstate :=
  {| listener := listener w; next_fd := next; fd_limit := fd_limit w;
     socks := s; accepted := acc; threads := threads w;
     thread_limit := thread_limit w; output := output w;
     driver_runs := driver_runs w; clock := clock w |}.

Definition do_socket (domain : sa_family) (type : sock_type) (protocol : Z)
    (w : sysstate) : Z * sysstate :=
  if decide (domain = AF_INET6 ∧ type = SOCK_STREAM ∧ protocol = 0
             ∧ next_fd w < fd_limit w)
  then (next_fd w,
        set_socks w (next_fd w + 1) (<[next_fd w := None]> (socks w)) (accepted w))
  else (-1, w).

(** Only the two textual addresses [::1] and [::] are recognised. *)
Definition do_inet_pton (af : sa_family) (src : string) (w : sysstate)
    : (Z * option in6_addr) * sysstate :=
  match af with
  | AF_INET6 =>
      if decide (src = "::1"%string) then ((1, Some in6addr_loopback), w)
      else if decide (src = "::"%string) then ((1, Some in6addr_any), w)
      else ((0, None), w)
  | AF_INET => ((0, None), w)
  end.

(** The destination of a socket address, when its family, port and address
    are set: the address and the port in host byte order. *)
Definition destination (le : bool) (sa : sockaddr_in6) : option (in6_addr * Z) :=
  match sin6_family sa, sin6_port sa, sin6_addr sa with
  | Init AF_INET6, Init p, Init a => Some (a, ntohs le p)
  | _, _, _ => None
  end.

(** A server listening on [l] takes a connection to [d] when the ports are
    the same and it is bound to the address of [d] or to the wildcard
    address [::]. *)
Definition served (l d : option (in6_addr * Z)) : bool :=
  match l, d with
  | Some l, Some d => bool_decide (l.2 = d.2 ∧ (l.1 = d.1 ∨ l.1 = in6addr_any))
  | _, _ => false
  end.

Definition do_connect (le : bool) (sockfd : Z) (addr : sockaddr_in6) (addrlen : Z)
    (w : sysstate) : Z * sysstate :=
  match socks w !! sockfd with
  | Some None =>
      if decide (addrlen = sizeof_sockaddr_in6
                 ∧ served (listener w) (destination le addr) = true)
      then (0, set_socks w (next_fd w)
                 (<[sockfd := Some (length (accepted w))]> (socks w))
                 (accepted w ++ [Conn [] false]))
      else (-1, w)
  | _ => (-1, w)
  end.

(** The return value of [send].  On a socket that is not connected it is
    [-1] ([EPIPE]); the [SIGPIPE] raised with it is in [raises] below. *)
Definition do_send (st : state) (sockfd : Z) (buf : ptr) (len : Z) (flags : Z)
    (w : sysstate) : Z * sysstate :=
  match socks w !! sockfd with
  | Some (Some i) =>
      match load_bytes (heap st) buf len with
      | Some bs =>
          (len, set_socks w (next_fd w) (socks w)
                  (alter (fun c => Conn (rx c ++ bs) (eof c)) i (accepted w)))
      | None => (-1, w)
      end
  | _ => (-1, w)
  end.

Definition do_usleep (usec : Z) (w : sysstate) : Z * sysstate :=
  (0, {| listener := listener w; next_fd := next_fd w; fd_limit := fd_limit w;
         socks := socks w; accepted := accepted w; threads := threads w;
         thread_limit := thread_limit w; output := output w;
         driver_runs := driver_runs w; clock := clock w + usec |}).

Definition do_close (fd : Z) (w : sysstate) : Z * sysstate :=
  match socks w !! fd with
  | Some (Some i) =>
      (0, set_socks w (next_fd w) (delete fd (socks w))
            (alter (fun c => Conn (rx c) true) i (accepted w)))
  | Some None => (0, set_socks w (next_fd w) (delete fd (socks w)) (accepted w))
  | None => (-1, w)
  end.

Definition EAGAIN : Z := 11.

Definition do_pthread_create (attr : ptr) (start_routine : fnptr) (arg : ptr)
    (w : sysstate) : (Z * option Z) * sysstate :=
  if decide (length (threads w) < thread_limit w)%nat
  then ((0, Some (Z.of_nat (length (threads w)) + 1)),
        {| listener := listener w; next_fd := next_fd w; fd_limit := fd_limit w;
           socks := socks w; accepted := accepted w;
           threads := threads w ++ [(start_routine, arg)];
           thread_limit := thread_limit w; output := output w;
           driver_runs := driver_runs w; clock := clock w |})
  else ((EAGAIN, None), w).

Definition do_fprintf (s : stream) (format : string) (w : sysstate) : Z * sysstate :=
  (Z.of_nat (String.length format),
   {| listener := listener w; next_fd := next_fd w; fd_limit := fd_limit w;
      socks := socks w; accepted := accepted w; threads := threads w;
      thread_limit := thread_limit w; output := output w ++ [(s, format)];
      driver_runs := driver_runs w; clock := clock w |}).

(** The driver is not run; the sysstate records how it was started. *)
Definition do_run_driver (st : state) (argc argv : ptr) (UserCb : fnptr)
    (w : sysstate) : Z * sysstate :=
  (0, {| listener := listener w; next_fd := next_fd w; fd_limit := fd_limit w;
         socks := socks w; accepted := accepted w; threads := threads w;
         thread_limit := thread_limit w; output := output w;
         driver_runs :=
           driver_runs w
             ++ [(driver_args (glob st) (RunDriver argc argv UserCb), UserCb)];
         clock := clock w |}).

Definition answer (le : bool) (c : call) (st : state) (w : sysstate)
    : ret_type c * sysstate :=
  match c as c0 return ret_type c0 * sysstate with
  | Socket domain type protocol => do_socket domain type protocol w
  | Inet_pton af src => do_inet_pton af src w
  | Connect sockfd addr addrlen => do_connect le sockfd addr addrlen w
  | Send sockfd buf len flags => do_send st sockfd buf len flags w
  | Usleep usec => do_usleep usec w
  | Close fd => do_close fd w
  | Pthread_create attr start_routine arg =>
      do_pthread_create attr start_routine arg w
  | Fprintf s format => do_fprintf s format w
  | RunDriver argc argv UserCb => do_run_driver st argc argv UserCb w
  end.

Definition os (le : bool) : OS sysstate :=
  {| little_endian := le; sys := answer le |}.

(** [send] on a stream socket that is not connected raises [SIGPIPE], unless
    the flag [MSG_NOSIGNAL] is given; the signal ends the process unless it
    is ignored. *)
Definition MSG_NOSIGNAL : Z := 16384.

Definition raises (sigpipe_ignored : bool) (c : call) (st : state) (w : sysstate)
    : option signal :=
  match c with
  | Send sockfd _ _ flags =>
      match socks w !! sockfd with
      | Some None =>
          if sigpipe_ignored || bool_decide (Z.land flags MSG_NOSIGNAL ≠ 0)
          then None else Some SIGPIPE
      | _ => None
      end
  | _ => None
  end.

(** The host with signals, for a process that ignores [SIGPIPE] or leaves
    it at its default action. *)
Definition os_sig (le sigpipe_ignored : bool) : OS (sysstate * option signal) :=
  with_signals (os le) (raises sigpipe_ignored).

(** A host on which a server listens on [[::1]:5555], or none does. *)
Definition host (listening : bool) (fds : Z) (thr : nat) : sysstate :=
  {| listener := if listening then Some (in6addr_loopback, 5555) else None;
     next_fd := 3; fd_limit := 3 + fds; socks := ∅; accepted := [];
     threads := []; thread_limit := thr; output := [];
     driver_runs := []; clock := 0 |}.

(** The process at start-up: the globals hold their initialisers. *)
Definition boot (h : gmap Z byte) (w : sysstate) : machine sysstate :=
  {| mem := {| glob := init_globals; heap := h |}; world := w; trace := [] |}.

End Posix.

(** ** Vocabulary of the statements *)

(** The socket address [fuzzServer] hands to [connect], given what
    [inet_pton] stored through its output pointer. *)
Definition relay_addr (le : bool) (dst : option in6_addr) : sockaddr_in6 :=
  {| sin6_family := Init AF_INET6;
     sin6_port := Init (htons le 5555);
     sin6_flowinfo := Undef;
     sin6_addr := cell_of_option dst;
     sin6_scope_id := Undef |}.

(** The six calls of one relay, for a descriptor and an [inet_pton] output. *)
Definition relay_calls (le : bool) (fd : Z) (dst : option in6_addr)
    (Data : ptr) (Size : Z) : list call :=
  [Socket AF_INET6 SOCK_STREAM 0;
   Inet_pton AF_INET6 "::1";
   Connect fd (relay_addr le dst) sizeof_sockaddr_in6;
   Send fd Data Size 0;
   Usleep (msec 1);
   Close fd].


(** The two calls of one run of the startup hook. *)
Definition launch_message : string :=
  "fuzzing launched" ++ String "010"%char EmptyString.

(** The number of driver threads that run in a schedule. *)
Fixpoint driver_starts (acts : list action) : nat :=
  match acts with
  | [] => 0
  | act_launchFuzzer2 _ :: l => S (driver_starts l)
  | _ :: l => driver_starts l
  end.

(** The driver hands the relay one input after the other: it writes the
    input into its buffer at some address and calls [fuzzServer] on it. *)
Definition relay_schedule (inputs : list (Z * list byte)) : list action :=
  flat_map (fun i => [act_driver_write i.1 i.2;
                      act_fuzzServer (addr_heap i.1) (Z.of_nat (length i.2))])
    inputs.

(** The call by which [launchFuzzer2] starts the driver. *)
Definition driver_call : call :=
  RunDriver addr_args_size addr_args_ptr fn_fuzzServer.

(** The configuration the claims name. *)
Definition fixed_arguments : list (option string) :=
  [Some "0"%string; Some "corpus"%string; Some "-max_len=60000"%string;
   Some "-detect_leaks=0"%string; Some "-len_control=20"%string].

(** The reference host after one relay of the bytes [B] to a listening
    server, from the host [w]. *)
Definition after_relay (w : Posix.sysstate) (B : list byte) : Posix.sysstate :=
  {| Posix.listener := Posix.listener w;
     Posix.next_fd := Posix.next_fd w + 1;
     Posix.fd_limit := Posix.fd_limit w;
     Posix.socks := delete (Posix.next_fd w) (Posix.socks w);
     Posix.accepted := Posix.accepted w ++ [Posix.Conn B true];
     Posix.threads := Posix.threads w;
     Posix.thread_limit := Posix.thread_limit w;
     Posix.output := Posix.output w;
     Posix.driver_runs := Posix.driver_runs w;
     Posix.clock := Posix.clock w + 1000 |}.

(** A three-byte input at address 100 of the driver's memory, and the
    process at start-up on three hosts: one with a listening server, one
    without, one that has run out of descriptors. *)
Definition sample_input : list byte := [x41; x42; x43].
Definition sample_heap : gmap Z byte := store_bytes ∅ 100 sample_input.
Definition sample_machine : machine Posix.sysstate :=
  Posix.boot sample_heap (Posix.host true 4 2).
Definition sample_machine_no_listener : machine Posix.sysstate :=
  Posix.boot sample_heap (Posix.host false 4 2).
Definition sample_machine_no_fd : machine Posix.sysstate :=
  Posix.boot sample_heap (Posix.host true 0 2).

(** *** Observations on schedules *)

(** The number of relay invocations in a schedule. *)
Fixpoint relays (acts : list action) : nat :=
  match acts with
  | [] => 0
  | act_fuzzServer _ _ :: l => S (relays l)
  | _ :: l => relays l
  end.

(** The driver's buffer after the driver's own writes of a schedule. *)
Fixpoint apply_writes (acts : list action) (h : gmap Z byte) : gmap Z byte :=
  match acts with
  | [] => h
  | act_driver_write a bs :: l => apply_writes l (store_bytes h a bs)
  | _ :: l => apply_writes l h
  end.

(** The descriptors of a log: those [socket] returned, and those handed to
    [connect], to [send] and to [close]. *)
Definition opened (evs : list event) : list Z :=
  omap (fun e => match ev_call e with
                 | Socket _ _ _ => Some (ev_code e)
                 | _ => None
                 end) evs.

Definition connected (evs : list event) : list Z :=
  omap (fun e => match ev_call e with
                 | Connect fd _ _ => Some fd
                 | _ => None
                 end) evs.

Definition sent_on (evs : list event) : list Z :=
  omap (fun e => match ev_call e with
                 | Send fd _ _ _ => Some fd
                 | _ => None
                 end) evs.

Definition closed (evs : list event) : list Z :=
  omap (fun e => match ev_call e with
                 | Close fd => Some fd
                 | _ => None
                 end) evs.

(** The microseconds of sleep a log asks for. *)
Definition pause_of (e : event) : Z :=
  match ev_call e with
  | Usleep usec => usec
  | _ => 0
  end.

Definition total_pause (evs : list event) : Z :=
  foldr (fun e s => pause_of e + s) 0 evs.

(** The invocation a created thread performs: its start routine applied to
    its argument.  Only [launchFuzzer2] has the type of a start routine. *)
Definition thread_action (t : fnptr * ptr) : option action :=
  match t.1 with
  | fn_launchFuzzer2 => Some (act_launchFuzzer2 t.2)
  | fn_fuzzServer => None
  end.

Definition thread_actions (ths : list (fnptr * ptr)) : list action :=
  omap thread_action ths.

(** ** Facts about the monad and the byte order *)

Section Facts.
Context {W : Type} (os : OS W).

Lemma emitted_app {A : Type} (p : M W A) (m : machine W) (evs : list event) :
  trace (snd (p m)) = trace m ++ evs → emitted p m = evs.
Proof. unfold emitted. intros ->. by rewrite drop_app_length. Qed.

Lemma syscall_run (c : call) (m : machine W) :
  ∃ r w', syscall os c m = (r, Machine (mem m) w' (trace m ++ [Ev c r]))
          ∧ sys os c (mem m) (world m) = (r, w').
Proof.
  unfold syscall. destruct (sys os c (mem m) (world m)) as [r w'].
  by exists r, w'.
Qed.

(** One relay, from any machine: the result, the memory and the log. *)
Lemma fuzzServer_run (Data : ptr) (Size : Z) (m : machine W) :
  ∃ fd c1 dst c2 c3 c4 c5 w',
    fuzzServer os Data Size m =
      (1, Machine (mem m) w'
            (trace m ++
               [Ev (Socket AF_INET6 SOCK_STREAM 0) fd;
                Ev (Inet_pton AF_INET6 "::1") (c1, dst);
                Ev (Connect fd (relay_addr (little_endian os) dst)
                      sizeof_sockaddr_in6) c2;
                Ev (Send fd Data Size 0) c3;
                Ev (Usleep (msec 1)) c4;
                Ev (Close fd) c5])).
Proof.
  unfold fuzzServer, bind, socket, inet_pton, connect, send, usleep, close, ret.
  destruct (syscall_run (Socket AF_INET6 SOCK_STREAM 0) m)
    as (fd & w1 & -> & _).
  match goal with |- context [syscall os (Inet_pton ?a ?s) ?m1] =>
    destruct (syscall_run (Inet_pton a s) m1) as ([c1 dst] & w2 & -> & _) end.
  match goal with |- context [syscall os (Connect ?a ?b ?c) ?m1] =>
    destruct (syscall_run (Connect a b c) m1) as (c2 & w3 & -> & _) end.
  match goal with |- context [syscall os (Send ?a ?b ?c ?d) ?m1] =>
    destruct (syscall_run (Send a b c d) m1) as (c3 & w4 & -> & _) end.
  match goal with |- context [syscall os (Usleep ?a) ?m1] =>
    destruct (syscall_run (Usleep a) m1) as (c4 & w5 & -> & _) end.
  match goal with |- context [syscall os (Close ?a) ?m1] =>
    destruct (syscall_run (Close a) m1) as (c5 & w6 & -> & _) end.
  exists fd, c1, dst, c2, c3, c4, c5, w6. cbn [mem trace snd].
  rewrite <- !app_assoc. do 2 f_equal. f_equal. f_equal.
  do 2 f_equal. f_equal. unfold relay_addr. by destruct dst.
Qed.

Lemma launchFuzzer2_run (param : ptr) (m : machine W) :
  ∃ c1 c2 w',
    launchFuzzer2 os param m =
      (Undef, Machine (mem m) w'
                (trace m ++ [Ev (Usleep 15000) c1; Ev driver_call c2])).
Proof.
  unfold launchFuzzer2, bind, usleep, LLVMFuzzerRunDriver, ret.
  destruct (syscall_run (Usleep 15000) m) as (c1 & w1 & -> & _).
  match goal with |- context [syscall os (RunDriver ?a ?b ?c) ?m1] =>
    destruct (syscall_run (RunDriver a b c) m1) as (c2 & w2 & -> & _) end.
  exists c1, c2, w2. cbn [mem trace]. by rewrite <- app_assoc.
Qed.

Lemma launchFuzzer_run (m : machine W) :
  ∃ r1 c2 w',
    launchFuzzer os m =
      (tt, Machine (mem m) w'
             (trace m ++ [Ev (Pthread_create NULL fn_launchFuzzer2 NULL) r1;
                          Ev (Fprintf stderr launch_message) c2])).
Proof.
  unfold launchFuzzer, bind, pthread_create, fprintf, ret.
  destruct (syscall_run (Pthread_create NULL fn_launchFuzzer2 NULL) m)
    as (r1 & w1 & -> & _).
  match goal with |- context [syscall os (Fprintf ?a ?b) ?m1] =>
    destruct (syscall_run (Fprintf a b) m1) as (c2 & w2 & -> & _) end.
  exists r1, c2, w2. cbn [mem trace]. by rewrite <- app_assoc.
Qed.

(** Every action extends the log and keeps the globals; only
    [launchFuzzer2] adds a driver start. *)
Lemma perform_run (a : action) (m : machine W) :
  ∃ evs,
    trace (snd (perform os a m)) = trace m ++ evs
    ∧ glob (mem (snd (perform os a m))) = glob (mem m)
    ∧ ∀ g, driver_views g evs =
           replicate (driver_starts [a]) (driver_args g driver_call).
Proof.
  destruct a as [|param|Data Size|a bs]; unfold perform, bind.
  - destruct (launchFuzzer_run m) as (r1 & c2 & w' & ->).
    eexists. cbn [snd trace mem]. split; [reflexivity|]. by split.
  - destruct (launchFuzzer2_run param m) as (c1 & c2 & w' & ->).
    eexists. cbn [snd trace mem ret]. split; [reflexivity|]. by split.
  - destruct (fuzzServer_run Data Size m)
      as (fd & c1 & dst & c2 & c3 & c4 & c5 & w' & ->).
    eexists. cbn [snd trace mem ret]. split; [reflexivity|]. by split.
  - exists []. cbn. rewrite app_nil_r. by repeat split.
Qed.

Lemma driver_views_app (g : globals) (l1 l2 : list event) :
  driver_views g (l1 ++ l2) = driver_views g l1 ++ driver_views g l2.
Proof. unfold driver_views. apply omap_app. Qed.

Lemma driver_starts_cons (a : action) (l : list action) :
  driver_starts (a :: l) = (driver_starts [a] + driver_starts l)%nat.
Proof. by destruct a. Qed.

Lemma perform_all_run (acts : list action) (m : machine W) :
  ∃ evs,
    trace (snd (perform_all os acts m)) = trace m ++ evs
    ∧ glob (mem (snd (perform_all os acts m))) = glob (mem m)
    ∧ ∀ g, driver_views g evs =
           replicate (driver_starts acts) (driver_args g driver_call).
Proof.
  revert m. induction acts as [|a acts IH]; intros m.
  - exists []. cbn. rewrite app_nil_r. by repeat split.
  - destruct (perform_run a m) as (evs1 & Ht1 & Hg1 & Hv1).
    cbn [perform_all]. unfold bind.
    destruct (perform os a m) as [[] m1]. cbn [snd] in *.
    destruct (IH m1) as (evs2 & Ht2 & Hg2 & Hv2).
    exists (evs1 ++ evs2). split; [|split].
    + by rewrite Ht2, Ht1, app_assoc.
    + by rewrite Hg2.
    + intros g. rewrite (driver_starts_cons a acts), replicate_add.
      by rewrite driver_views_app, Hv1, Hv2.
Qed.

End Facts.


(** [max_len] is the bound the third argument string asks libFuzzer for. *)
Lemma max_len_configured :
  arg_array init_globals !! 2%nat = Some (Some ("-max_len=" +:+ pretty max_len)).
Proof. reflexivity. Qed.

(** The two conversions of a port number undo each other. *)
Lemma testbit_255 (n : Z) : 0 <= n → Z.testbit 255 n = bool_decide (n < 8).
Proof.
  intros Hn. change 255 with (Z.ones 8).
  rewrite Z.testbit_ones_nonneg by lia.
  case_bool_decide; lia.
Qed.

Lemma bswap16_testbit (x n : Z) :
  0 <= n →
  Z.testbit (bswap16 x) n =
    if bool_decide (n < 8) then Z.testbit x (n + 8)
    else if bool_decide (n < 16) then Z.testbit x (n - 8) else false.
Proof.
  intros Hn. unfold bswap16.
  rewrite Z.lor_spec, Z.land_spec, Z.shiftr_spec, testbit_255 by lia.
  destruct (decide (n < 8)) as [H8|H8].
  - rewrite (bool_decide_eq_true_2 _ H8).
    rewrite Z.shiftl_spec_low by lia. by rewrite andb_true_r.
  - rewrite (bool_decide_eq_false_2 _ H8), andb_false_r, orb_false_r.
    rewrite Z.shiftl_spec, Z.land_spec, testbit_255 by lia.
    destruct (Z.testbit x (n - 8)); repeat case_bool_decide; first [done | lia].
Qed.

Lemma testbit_above_16 (x n : Z) : 0 <= x < 2 ^ 16 → 16 <= n → Z.testbit x n = false.
Proof.
  intros Hx Hn. destruct (decide (x = 0)) as [->|Hx0].
  - apply Z.bits_0.
  - apply Z.bits_above_log2; [lia|].
    assert (Z.log2 x < 16); [|lia].
    apply Z.log2_lt_pow2; lia.
Qed.

Lemma bswap16_mod (x : Z) : bswap16 x mod 2 ^ 16 = bswap16 x.
Proof.
  rewrite <- Z.land_ones by lia. apply Z.bits_inj'. intros n Hn.
  rewrite Z.land_spec, Z.testbit_ones_nonneg, bswap16_testbit by lia.
  repeat case_bool_decide; rewrite ?andb_false_l; try done; try lia.
  all: replace (n <? 16) with true by (symmetry; apply Z.ltb_lt; lia).
  all: by rewrite andb_true_r.
Qed.

Lemma bswap16_involutive (x : Z) : 0 <= x < 2 ^ 16 → bswap16 (bswap16 x) = x.
Proof.
  intros Hx. apply Z.bits_inj'. intros n Hn.
  rewrite bswap16_testbit by lia.
  destruct (decide (n < 8)) as [H8|H8].
  - rewrite (bool_decide_eq_true_2 _ H8), bswap16_testbit by lia.
    rewrite bool_decide_eq_false_2, bool_decide_eq_true_2 by lia.
    f_equal. lia.
  - rewrite (bool_decide_eq_false_2 _ H8).
    case_bool_decide.
    + rewrite bswap16_testbit, bool_decide_eq_true_2 by lia. f_equal. lia.
    + symmetry. apply testbit_above_16; lia.
Qed.

Lemma ntohs_htons (le : bool) (x : Z) : ntohs le (htons le x) = x mod 2 ^ 16.
Proof.
  unfold ntohs, htons. cbv zeta.
  assert (0 <= x mod 2 ^ 16 < 2 ^ 16) as Hx by (apply Z.mod_pos_bound; lia).
  destruct le.
  - rewrite bswap16_mod.
    by apply bswap16_involutive.
  - by rewrite Z.mod_mod.
Qed.



(** ** Facts about the reference host *)

Section PosixFacts.
Import Posix.

Lemma destination_relay_addr le dst :
  destination le (relay_addr le dst) = (fun a => (a, 5555)) <$> dst.
Proof.
  unfold destination, relay_addr. cbn.
  destruct dst as [a|]; cbn; [|done].
  by rewrite ntohs_htons.
Qed.

Lemma alter_last {A} (f : A → A) (l : list A) (x : A) :
  alter f (length l) (l ++ [x]) = l ++ [f x].
Proof. rewrite alter_app_r_alt by lia. by rewrite Nat.sub_diag. Qed.

Lemma posix_relay le (m : machine Posix.sysstate) Data Size B :
  listener (world m) = Some (in6addr_loopback, 5555) →
  next_fd (world m) < fd_limit (world m) →
  load_bytes (heap (mem m)) Data Size = Some B →
  fuzzServer (os le) Data Size m =
    (1, Machine (mem m) (after_relay (world m) B)
          (trace m ++
             [Ev (Socket AF_INET6 SOCK_STREAM 0) (next_fd (world m));
              Ev (Inet_pton AF_INET6 "::1") (1, Some in6addr_loopback);
              Ev (Connect (next_fd (world m)) (relay_addr le (Some in6addr_loopback))
                    sizeof_sockaddr_in6) 0;
              Ev (Send (next_fd (world m)) Data Size 0) Size;
              Ev (Usleep (msec 1)) 0;
              Ev (Close (next_fd (world m))) 0])).
Proof.
  intros Hl Hfd HB. destruct m as [st w tr]. cbn [world mem trace] in *.
  unfold fuzzServer, bind, socket, inet_pton, connect, send, usleep, close, ret, syscall.
  cbn [sys os little_endian answer mem world trace].
  unfold do_socket. rewrite decide_True by done.
  cbn [mem world trace snd].
  change (do_inet_pton AF_INET6 "::1" ?w) with ((1, Some in6addr_loopback), w).
  cbn [mem world trace snd].
  change (store_sin6_addr ?a (Some ?b)) with (relay_addr le (Some b)).
  unfold do_connect. cbn [socks set_socks listener accepted next_fd].
  rewrite lookup_insert_eq.
  rewrite decide_True.
  2:{ rewrite Hl, destination_relay_addr. done. }
  cbn [mem world trace snd].
  unfold do_send. cbn [socks set_socks listener accepted next_fd].
  rewrite lookup_insert_eq, HB.
  cbn [mem world trace snd do_usleep].
  unfold do_close. cbn [socks set_socks listener accepted next_fd].
  rewrite lookup_insert_eq.
  cbn [set_socks listener next_fd fd_limit socks accepted threads thread_limit
       output driver_runs clock mem world trace snd].
  rewrite !delete_insert_eq, !alter_last. cbn [rx eof].
  rewrite <- !app_assoc. reflexivity.
Qed.


End PosixFacts.

(** ** Facts about the driver's buffer *)

Lemma load_from_insert_lt (h : gmap Z byte) (a a' : Z) (b : byte) (n : nat) :
  a < a' → load_from (<[a := b]> h) a' n = load_from h a' n.
Proof.
  revert a'. induction n as [|n IH]; intros a' Hlt; [done|].
  cbn [load_from]. rewrite lookup_insert_ne by lia.
  by rewrite IH by lia.
Qed.

Lemma load_store_bytes (h : gmap Z byte) (a : Z) (bs : list byte) :
  load_bytes (store_bytes h a bs) (addr_heap a) (Z.of_nat (length bs)) = Some bs.
Proof.
  unfold load_bytes. rewrite Nat2Z.id.
  revert a. induction bs as [|b bs IH]; intros a; [done|].
  cbn [store_bytes length load_from].
  rewrite lookup_insert_eq, load_from_insert_lt by lia.
  by rewrite IH.
Qed.

Lemma load_bytes_zero (h : gmap Z byte) (p : ptr) : load_bytes h p 0 = Some [].
Proof. by destruct p. Qed.

(** ** Runs of the relay on the reference host *)

Section RelayOnHost.
Import Posix.

(** The driver feeds the relay a list of inputs: the server accepts one
    connection per input and reads exactly that input on it. *)
Lemma relay_schedule_run (le : bool) (inputs : list (Z * list byte))
    (m : machine sysstate) :
  listener (world m) = Some (in6addr_loopback, 5555) →
  next_fd (world m) + Z.of_nat (length inputs) <= fd_limit (world m) →
  accepted (world (snd (perform_all (os le) (relay_schedule inputs) m)))
  = accepted (world m) ++ map (fun i => Conn i.2 true) inputs.
Proof.
  revert m. induction inputs as [|[a B] inputs IH]; intros m Hl Hfd.
  - cbn. by rewrite app_nil_r.
  - cbn [relay_schedule flat_map app perform_all perform fst snd].
    unfold bind at 1. cbn [driver_write].
    unfold bind at 1. unfold bind at 1.
    rewrite (posix_relay le _ _ _ B); cbn [mem world heap]; [| done | | ].
    + cbn [ret]. change (flat_map _ inputs) with (relay_schedule inputs).
      rewrite IH; cbn [world after_relay listener next_fd fd_limit accepted].
      * by rewrite <- app_assoc.
      * done.
      * cbn [length] in Hfd. lia.
    + cbn [length] in Hfd. lia.
    + apply load_store_bytes.
Qed.

(** Without a descriptor the relay passes [-1] on. *)
Lemma posix_relay_no_fd (le : bool) (m : machine sysstate) (Data : ptr) (Size : Z) :
  ¬ next_fd (world m) < fd_limit (world m) →
  socks (world m) !! (-1) = None →
  ev_call <$> emitted (fuzzServer (os le) Data Size) m
  = relay_calls le (-1) (Some in6addr_loopback) Data Size.
Proof.
  intros Hfd Hs. destruct m as [st w tr]. cbn [world mem trace] in *.
  unfold emitted, fuzzServer, bind, socket, inet_pton, connect, send, usleep,
    close, ret, syscall.
  cbn [sys os little_endian answer mem world trace].
  unfold do_socket. rewrite decide_False by tauto.
  cbn [mem world trace snd].
  change (do_inet_pton AF_INET6 "::1" ?w) with ((1, Some in6addr_loopback), w).
  cbn [mem world trace snd].
  unfold do_connect. rewrite Hs. cbn [mem world trace snd].
  unfold do_send. rewrite Hs. cbn [mem world trace snd do_usleep].
  unfold do_close. cbn [socks]. rewrite Hs. cbn [mem world trace snd].
  rewrite <- !app_assoc, drop_app_length. reflexivity.
Qed.

(** One run of the startup hook on the reference host. *)
Lemma posix_launchFuzzer (le : bool) (m : machine sysstate) :
  threads (world (snd (launchFuzzer (os le) m)))
  = threads (world m)
      ++ (if decide (length (threads (world m)) < thread_limit (world m))%nat
          then [(fn_launchFuzzer2, NULL)] else [])
  ∧ thread_limit (world (snd (launchFuzzer (os le) m))) = thread_limit (world m)
  ∧ output (world (snd (launchFuzzer (os le) m)))
    = output (world m) ++ [(stderr, launch_message)].
Proof.
  destruct m as [st w tr].
  unfold launchFuzzer, bind, pthread_create, fprintf, ret, syscall.
  cbn [sys os answer mem world trace]. unfold do_pthread_create.
  case_decide; cbn; by rewrite ?app_nil_r.
Qed.

Lemma posix_launchFuzzer_repeat (le : bool) (n : nat) (m : machine sysstate) :
  (length (threads (world m)) + n <= thread_limit (world m))%nat →
  threads (world (snd (perform_all (os le) (replicate n act_launchFuzzer) m)))
  = threads (world m) ++ replicate n (fn_launchFuzzer2, NULL)
  ∧ output (world (snd (perform_all (os le) (replicate n act_launchFuzzer) m)))
    = output (world m) ++ replicate n (stderr, launch_message).
Proof.
  revert m. induction n as [|n IH]; intros m Hn.
  - cbn. by rewrite !app_nil_r.
  - cbn [replicate perform_all perform]. unfold bind.
    destruct (posix_launchFuzzer le m) as (Ht & Hlim & Ho).
    destruct (launchFuzzer (os le) m) as [[] m1]. cbn [snd] in *.
    rewrite decide_True in Ht by lia.
    destruct (IH m1) as [Ht' Ho'].
    { rewrite Ht, Hlim, length_app. cbn. lia. }
    rewrite Ht', Ho', Ht, Ho, <- !app_assoc. done.
Qed.

End RelayOnHost.

(** The calls of [n] runs of the startup hook, on any platform. *)
Lemma launchFuzzer_repeat_calls {W : Type} (os : OS W) (n : nat) (m : machine W) :
  ∃ evs,
    trace (snd (perform_all os (replicate n act_launchFuzzer) m)) = trace m ++ evs
    ∧ ev_call <$> evs
      = mjoin (replicate n [Pthread_create NULL fn_launchFuzzer2 NULL;
                            Fprintf stderr launch_message]).
Proof.
  revert m. induction n as [|n IH]; intros m.
  - exists []. cbn. by rewrite app_nil_r.
  - cbn [replicate perform_all perform]. unfold bind.
    destruct (launchFuzzer_run os m) as (r1 & c2 & w' & ->).
    destruct (IH (Machine (mem m) w'
                    (trace m ++ [Ev (Pthread_create NULL fn_launchFuzzer2 NULL) r1;
                                 Ev (Fprintf stderr launch_message) c2])))
      as (evs & Ht & Hc).
    eexists. rewrite Ht. cbn [trace]. rewrite <- app_assoc. split; [reflexivity|].
    rewrite fmap_app, Hc. reflexivity.
Qed.

(** ** Runs on a platform with signals *)


(** * The claims *)






(** C3.  On every platform one invocation of the relay makes exactly these
    calls, in this order: [socket] for a TCP/IPv6 socket; [inet_pton] on the
    text [::1]; [connect] of the descriptor [socket] returned to the address
    [inet_pton] produced, port 5555; one [send] of [Size] bytes at [Data] on
    that descriptor; [usleep] for one millisecond; [close] of that
    descriptor.  Where [inet_pton] answers as libc does, the address is the
    loopback address. *)
Theorem fuzzServer_call_sequence {W : Type} (os : OS W) (m : machine W)
    (Data : ptr) (Size : Z) :
  ∃ fd c1 dst c2 c3 c4 c5,
    emitted (fuzzServer os Data Size) m
    = [Ev (Socket AF_INET6 SOCK_STREAM 0) fd;
       Ev (Inet_pton AF_INET6 "::1") (c1, dst);
       Ev (Connect fd (relay_addr (little_endian os) dst) sizeof_sockaddr_in6) c2;
       Ev (Send fd Data Size 0) c3;
       Ev (Usleep (msec 1)) c4;
       Ev (Close fd) c5]
    ∧ Posix.destination (little_endian os) (relay_addr (little_endian os) dst)
      = (fun a => (a, 5555)) <$> dst
    ∧ ∀ w, fst (Posix.do_inet_pton AF_INET6 "::1" w) = (1, Some in6addr_loopback).
Proof.
  destruct (fuzzServer_run os Data Size m)
    as (fd & c1 & dst & c2 & c3 & c4 & c5 & w' & Hrun).
  exists fd, c1, dst, c2, c3, c4, c5. split; [|split].
  - by rewrite (emitted_app _ _ _ (f_equal (trace ∘ snd) Hrun)).
  - apply destination_relay_addr.
  - done.
Qed.

(** C4.  The relay hands exactly the [Size] bytes at [Data] to its one
    [send]; and when a server listens on the loopback address, the inputs
    the driver feeds the relay one after the other arrive one per accepted
    connection, each connection carrying exactly its input and then closed:
    nothing is cut and no two inputs are joined. *)
Theorem fuzzServer_delivers_input :
  (∀ (W : Type) (os : OS W) (m : machine W) (Data : ptr) (Size : Z) (B : list byte),
     load_bytes (heap (mem m)) Data Size = Some B →
     sent (heap (mem m)) (emitted (fuzzServer os Data Size) m) = [Some B])
  ∧ (∀ (le : bool) (inputs : list (Z * list byte)) (m : machine Posix.sysstate),
       Posix.listener (world m) = Some (in6addr_loopback, 5555) →
       Posix.next_fd (world m) + Z.of_nat (length inputs) <= Posix.fd_limit (world m) →
       Posix.accepted
         (world (snd (perform_all (Posix.os le) (relay_schedule inputs) m)))
       = Posix.accepted (world m) ++ map (fun i => Posix.Conn i.2 true) inputs).
Proof.
  split.
  - intros W os m Data Size B HB.
    destruct (fuzzServer_run os Data Size m)
      as (fd & c1 & dst & c2 & c3 & c4 & c5 & w' & Hrun).
    rewrite (emitted_app _ _ _ (f_equal (trace ∘ snd) Hrun)).
    cbn. by rewrite HB.
  - apply relay_schedule_run.
Qed.

Lemma fuzzServer_delivers_input_witness :
  sent sample_heap (emitted (fuzzServer (Posix.os true) (addr_heap 100) 3) sample_machine)
  = [Some sample_input]
  ∧ Posix.accepted
      (world (snd (perform_all (Posix.os true)
                     (relay_schedule [(100, sample_input); (100, [x44])])
                     sample_machine)))
    = [Posix.Conn sample_input true; Posix.Conn [x44] true].
Proof.
  destruct fuzzServer_delivers_input as [H1 H2]. split.
  - apply (H1 _ (Posix.os true) sample_machine (addr_heap 100) 3 sample_input).
    vm_compute. reflexivity.
  - apply (H2 true [(100, sample_input); (100, [x44])] sample_machine).
    + reflexivity.
    + vm_compute. discriminate.
Defined.

(** C5.  With the globals at their initialisers, the background launch
    routine sleeps and then calls [LLVMFuzzerRunDriver] on the addresses of
    [args_size] and [args_ptr] and on [fuzzServer]; behind those addresses
    the driver finds the count 5 and the five strings ["0"], ["corpus"],
    ["-max_len=60000"], ["-detect_leaks=0"], ["-len_control=20"], followed
    by the null pointer. *)
Theorem launchFuzzer2_driver_arguments {W : Type} (os : OS W) (m : machine W)
    (param : ptr) :
  glob (mem m) = init_globals →
  ev_call <$> emitted (launchFuzzer2 os param) m = [Usleep 15000; driver_call]
  ∧ driver_views (glob (mem (snd (launchFuzzer2 os param m))))
      (emitted (launchFuzzer2 os param) m)
    = [Some (5, fixed_arguments)]
  ∧ length fixed_arguments = 5%nat
  ∧ load_strings (glob (mem (snd (launchFuzzer2 os param m)))) (addr_arg_array 5) 1
    = Some [None].
Proof.
  intros Hg.
  destruct (launchFuzzer2_run os param m) as (c1 & c2 & w' & Hrun).
  rewrite (emitted_app _ _ _ (f_equal (trace ∘ snd) Hrun)).
  rewrite Hrun. cbn [snd mem]. rewrite Hg. by repeat split.
Qed.

Lemma launchFuzzer2_driver_arguments_witness :
  glob (mem sample_machine) = init_globals
  ∧ driver_views (glob (mem (snd (launchFuzzer2 (Posix.os true) NULL sample_machine))))
      (emitted (launchFuzzer2 (Posix.os true) NULL) sample_machine)
    = [Some (5, fixed_arguments)].
Proof.
  assert (glob (mem sample_machine) = init_globals) as H by reflexivity.
  split; [exact H|].
  exact (proj1 (proj2 (launchFuzzer2_driver_arguments (Posix.os true)
                         sample_machine NULL H))).
Defined.

(** C6.  On every platform, [n] calls of the startup hook make exactly [n]
    times the two calls [pthread_create] (start routine [launchFuzzer2], no
    attributes, no argument) and [fprintf] of the confirmation message to
    the diagnostic stream, whatever [pthread_create] answers: no guard
    against a second call, no join, nothing after the message.  On the
    reference host, while the thread table has room, each call adds exactly
    one thread running [launchFuzzer2] and one line of output. *)
Theorem launchFuzzer_starts_one_thread_per_call :
  (∀ (W : Type) (os : OS W) (n : nat) (m : machine W),
     ev_call <$> emitted (perform_all os (replicate n act_launchFuzzer)) m
     = mjoin (replicate n [Pthread_create NULL fn_launchFuzzer2 NULL;
                           Fprintf stderr launch_message]))
  ∧ (∀ (le : bool) (n : nat) (m : machine Posix.sysstate),
       (length (Posix.threads (world m)) + n <= Posix.thread_limit (world m))%nat →
       Posix.threads
         (world (snd (perform_all (Posix.os le) (replicate n act_launchFuzzer) m)))
       = Posix.threads (world m) ++ replicate n (fn_launchFuzzer2, NULL)
       ∧ Posix.output
           (world (snd (perform_all (Posix.os le) (replicate n act_launchFuzzer) m)))
         = Posix.output (world m) ++ replicate n (stderr, launch_message)).
Proof.
  split.
  - intros W os n m.
    destruct (launchFuzzer_repeat_calls os n m) as (evs & Ht & Hc).
    by rewrite (emitted_app _ _ _ Ht).
  - apply posix_launchFuzzer_repeat.
Qed.

Lemma launchFuzzer_starts_one_thread_per_call_witness :
  ev_call <$> emitted (perform_all (Posix.os true) (replicate 1 act_launchFuzzer))
                sample_machine
  = [Pthread_create NULL fn_launchFuzzer2 NULL; Fprintf stderr launch_message]
  ∧ Posix.threads
      (world (snd (perform_all (Posix.os true) (replicate 2 act_launchFuzzer)
                     sample_machine)))
    = [(fn_launchFuzzer2, NULL); (fn_launchFuzzer2, NULL)]
  ∧ Posix.output
      (world (snd (perform_all (Posix.os true) (replicate 2 act_launchFuzzer)
                     sample_machine)))
    = [(stderr, launch_message); (stderr, launch_message)].
Proof.
  destruct launchFuzzer_starts_one_thread_per_call as [H1 H2]. split.
  - apply (H1 _ (Posix.os true) 1%nat sample_machine).
  - apply (H2 true 2%nat sample_machine). vm_compute. lia.
Defined.

(** When the thread table is full the hook starts no thread and prints the
    message all the same. *)
Example launchFuzzer_thread_table_full :
  let m := Posix.boot ∅ (Posix.host true 4 0) in
  Posix.threads (world (snd (launchFuzzer (Posix.os true) m))) = []
  ∧ Posix.output (world (snd (launchFuzzer (Posix.os true) m)))
    = [(stderr, launch_message)].
Proof. by vm_compute. Qed.

(** C7.  No invocation of the relay, of the startup hook or of the launch
    routine, in any order and on any platform, changes [arg_array],
    [args_ptr] or [args_size]; so every start of the driver in a schedule
    finds the same argument count and argument list behind the pointers it
    is given. *)
Theorem driver_configuration_invariant {W : Type} (os : OS W) (acts : list action)
    (m : machine W) :
  glob (mem (snd (perform_all os acts m))) = glob (mem m)
  ∧ driver_views (glob (mem (snd (perform_all os acts m))))
      (emitted (perform_all os acts) m)
    = replicate (driver_starts acts) (driver_args (glob (mem m)) driver_call).
Proof.
  destruct (perform_all_run os acts m) as (evs & Ht & Hg & Hv).
  split; [done|]. by rewrite (emitted_app _ _ _ Ht), Hg, Hv.
Qed.

(** C8.  With [Size = 0] the relay takes the same path: the same six calls,
    a [send] of no bytes, the result 1; and when a server listens on the
    loopback address it accepts one connection, reads nothing on it and sees
    it closed, every call of the relay having succeeded. *)
Theorem fuzzServer_empty_input :
  (∀ (W : Type) (os : OS W) (m : machine W) (Data : ptr),
     fst (fuzzServer os Data 0 m) = 1
     ∧ (∃ fd dst,
          ev_call <$> emitted (fuzzServer os Data 0) m
          = relay_calls (little_endian os) fd dst Data 0)
     ∧ sent (heap (mem m)) (emitted (fuzzServer os Data 0) m) = [Some []])
  ∧ (∀ (le : bool) (m : machine Posix.sysstate) (Data : ptr),
       Posix.listener (world m) = Some (in6addr_loopback, 5555) →
       Posix.next_fd (world m) < Posix.fd_limit (world m) →
       Posix.accepted (world (snd (fuzzServer (Posix.os le) Data 0 m)))
       = Posix.accepted (world m) ++ [Posix.Conn [] true]
       ∧ Posix.socks (world (snd (fuzzServer (Posix.os le) Data 0 m)))
         !! Posix.next_fd (world m) = None
       ∧ ev_code <$> emitted (fuzzServer (Posix.os le) Data 0) m
         = [Posix.next_fd (world m); 1; 0; 0; 0; 0]).
Proof.
  split.
  - intros W os m Data.
    destruct (fuzzServer_run os Data 0 m)
      as (fd & c1 & dst & c2 & c3 & c4 & c5 & w' & Hrun).
    rewrite (emitted_app _ _ _ (f_equal (trace ∘ snd) Hrun)).
    split; [by rewrite Hrun|]. split; [by exists fd, dst|].
    cbn. by rewrite load_bytes_zero.
  - intros le m Data Hl Hfd.
    pose proof (posix_relay le m Data 0 [] Hl Hfd (load_bytes_zero _ _)) as Hrun.
    rewrite (emitted_app _ _ _ (f_equal (trace ∘ snd) Hrun)).
    rewrite Hrun. cbn [snd world after_relay Posix.accepted Posix.socks].
    split; [done|]. split; [apply lookup_delete_eq|done].
Qed.

Lemma fuzzServer_empty_input_witness :
  fst (fuzzServer (Posix.os true) NULL 0 sample_machine) = 1
  ∧ Posix.accepted (world (snd (fuzzServer (Posix.os true) NULL 0 sample_machine)))
    = [Posix.Conn [] true].
Proof.
  destruct fuzzServer_empty_input as [H1 H2]. split.
  - apply (H1 _ (Posix.os true) sample_machine NULL).
  - apply (H2 true sample_machine NULL).
    + reflexivity.
    + vm_compute. reflexivity.
Defined.

(** C9.  On every platform the relay leaves the program's memory as it found
    it: the driver's buffer holds the same bytes, the three globals hold the
    same values, and the result is the integer 1, so nothing that refers to
    the buffer outlives the call.  On the reference host the socket is
    transient: the table of open sockets is afterwards what it was. *)
Theorem fuzzServer_frame :
  (∀ (W : Type) (os : OS W) (m : machine W) (Data : ptr) (Size : Z),
     mem (snd (fuzzServer os Data Size m)) = mem m
     ∧ load_bytes (heap (mem (snd (fuzzServer os Data Size m)))) Data Size
       = load_bytes (heap (mem m)) Data Size
     ∧ glob (mem (snd (fuzzServer os Data Size m))) = glob (mem m)
     ∧ fst (fuzzServer os Data Size m) = 1)
  ∧ (∀ (le : bool) (m : machine Posix.sysstate) (Data : ptr) (Size : Z) (B : list byte),
       Posix.listener (world m) = Some (in6addr_loopback, 5555) →
       Posix.next_fd (world m) < Posix.fd_limit (world m) →
       load_bytes (heap (mem m)) Data Size = Some B →
       Posix.socks (world m) !! Posix.next_fd (world m) = None →
       Posix.socks (world (snd (fuzzServer (Posix.os le) Data Size m)))
       = Posix.socks (world m)).
Proof.
  split.
  - intros W os m Data Size.
    destruct (fuzzServer_run os Data Size m)
      as (fd & c1 & dst & c2 & c3 & c4 & c5 & w' & ->).
    by repeat split.
  - intros le m Data Size B Hl Hfd HB Hfresh.
    rewrite (posix_relay le m Data Size B Hl Hfd HB).
    cbn [snd world after_relay Posix.socks]. by apply delete_id.
Qed.

Lemma fuzzServer_frame_witness :
  mem (snd (fuzzServer (Posix.os true) (addr_heap 100) 3 sample_machine))
  = mem sample_machine
  ∧ Posix.socks (world (snd (fuzzServer (Posix.os true) (addr_heap 100) 3
                               sample_machine)))
    = Posix.socks (world sample_machine).
Proof.
  destruct fuzzServer_frame as [H1 H2]. split.
  - apply (H1 _ (Posix.os true) sample_machine (addr_heap 100) 3).
  - apply (H2 true sample_machine (addr_heap 100) 3 sample_input).
    + reflexivity.
    + vm_compute. reflexivity.
    + vm_compute. reflexivity.
    + vm_compute. reflexivity.
Defined.

(** C10.  On every platform the socket address handed to [connect], with
    the size of the whole structure, has its family and its port assigned
    and its address written by [inet_pton], while [sin6_flowinfo] and
    [sin6_scope_id] are still indeterminate; and the descriptor handed to
    [connect], [send] and [close] is whatever [socket] returned.  On the
    reference host without a free descriptor that is [-1]. *)
Theorem fuzzServer_unchecked_descriptor_and_address :
  (∀ (W : Type) (os : OS W) (m : machine W) (Data : ptr) (Size : Z),
     ∃ fd c1 dst c2 c3 c4 c5 sa,
       emitted (fuzzServer os Data Size) m
       = [Ev (Socket AF_INET6 SOCK_STREAM 0) fd;
          Ev (Inet_pton AF_INET6 "::1") (c1, dst);
          Ev (Connect fd sa sizeof_sockaddr_in6) c2;
          Ev (Send fd Data Size 0) c3;
          Ev (Usleep (msec 1)) c4;
          Ev (Close fd) c5]
       ∧ sin6_family sa = Init AF_INET6
       ∧ sin6_port sa = Init (htons (little_endian os) 5555)
       ∧ sin6_addr sa = cell_of_option dst
       ∧ initialised (sin6_flowinfo sa) = false
       ∧ initialised (sin6_scope_id sa) = false
       ∧ sizeof_sockaddr_in6 = 28)
  ∧ (∀ (le : bool) (m : machine Posix.sysstate) (Data : ptr) (Size : Z),
       ¬ Posix.next_fd (world m) < Posix.fd_limit (world m) →
       Posix.socks (world m) !! (-1) = None →
       ev_call <$> emitted (fuzzServer (Posix.os le) Data Size) m
       = relay_calls le (-1) (Some in6addr_loopback) Data Size).
Proof.
  split.
  - intros W os m Data Size.
    destruct (fuzzServer_run os Data Size m)
      as (fd & c1 & dst & c2 & c3 & c4 & c5 & w' & Hrun).
    exists fd, c1, dst, c2, c3, c4, c5, (relay_addr (little_endian os) dst).
    rewrite (emitted_app _ _ _ (f_equal (trace ∘ snd) Hrun)).
    by repeat split.
  - apply posix_relay_no_fd.
Qed.

Lemma fuzzServer_unchecked_descriptor_and_address_witness :
  ev_call <$> emitted (fuzzServer (Posix.os true) (addr_heap 100) 3) sample_machine_no_fd
  = relay_calls true (-1) (Some in6addr_loopback) (addr_heap 100) 3.
Proof.
  destruct fuzzServer_unchecked_descriptor_and_address as [_ H2].
  apply (H2 true sample_machine_no_fd (addr_heap 100) 3).
  - vm_compute. intros H. discriminate H.
  - vm_compute. reflexivity.
Defined.


(** * Further properties of the three functions *)

(** ** Schedules on any platform *)

Lemma total_pause_app (l1 l2 : list event) :
  total_pause (l1 ++ l2) = total_pause l1 + total_pause l2.
Proof.
  unfold total_pause. induction l1 as [|e l1 IH]; cbn [app foldr]; [done|].
  rewrite IH. lia.
Qed.

(** What one action adds to the log and does to the driver's buffer. *)
Lemma perform_log {W : Type} (os : OS W) (a : action) (m : machine W) :
  ∃ evs,
    trace (snd (perform os a m)) = trace m ++ evs
    ∧ heap (mem (snd (perform os a m))) = apply_writes [a] (heap (mem m))
    ∧ opened evs = connected evs
    ∧ opened evs = sent_on evs
    ∧ opened evs = closed evs
    ∧ length (opened evs) = relays [a]
    ∧ total_pause evs
      = 1000 * Z.of_nat (relays [a]) + 15000 * Z.of_nat (driver_starts [a]).
Proof.
  destruct a as [|param|Data Size|a bs]; unfold perform, bind.
  - destruct (launchFuzzer_run os m) as (r1 & c2 & w' & ->).
    eexists. cbn [snd trace mem ret]. split; [reflexivity|]. by repeat split.
  - destruct (launchFuzzer2_run os param m) as (c1 & c2 & w' & ->).
    eexists. cbn [snd trace mem ret]. split; [reflexivity|]. by repeat split.
  - destruct (fuzzServer_run os Data Size m)
      as (fd & c1 & dst & c2 & c3 & c4 & c5 & w' & ->).
    eexists. cbn [snd trace mem ret]. split; [reflexivity|]. by repeat split.
  - exists []. cbn. rewrite app_nil_r. by repeat split.
Qed.

Lemma relays_cons (a : action) (l : list action) :
  relays (a :: l) = (relays [a] + relays l)%nat.
Proof. by destruct a. Qed.

Lemma apply_writes_cons (a : action) (l : list action) (h : gmap Z byte) :
  apply_writes (a :: l) h = apply_writes l (apply_writes [a] h).
Proof. by destruct a. Qed.

Lemma perform_all_log {W : Type} (os : OS W) (acts : list action) (m : machine W) :
  ∃ evs,
    trace (snd (perform_all os acts m)) = trace m ++ evs
    ∧ heap (mem (snd (perform_all os acts m))) = apply_writes acts (heap (mem m))
    ∧ opened evs = connected evs
    ∧ opened evs = sent_on evs
    ∧ opened evs = closed evs
    ∧ length (opened evs) = relays acts
    ∧ total_pause evs
      = 1000 * Z.of_nat (relays acts) + 15000 * Z.of_nat (driver_starts acts).
Proof.
  revert m. induction acts as [|a acts IH]; intros m.
  - exists []. cbn. rewrite app_nil_r. by repeat split.
  - destruct (perform_log os a m) as (evs1 & Ht1 & Hh1 & Hc1 & Hs1 & Hx1 & Hn1 & Hp1).
    cbn [perform_all]. unfold bind.
    destruct (perform os a m) as [[] m1]. cbn [snd] in *.
    destruct (IH m1) as (evs2 & Ht2 & Hh2 & Hc2 & Hs2 & Hx2 & Hn2 & Hp2).
    exists (evs1 ++ evs2).
    rewrite (relays_cons a acts), (driver_starts_cons a acts),
      (apply_writes_cons a acts).
    unfold opened, connected, sent_on, closed in *.
    rewrite !omap_app, total_pause_app, length_app.
    split; [by rewrite Ht2, Ht1, app_assoc|].
    split; [by rewrite Hh2, Hh1|].
    split; [by rewrite <- Hc1, <- Hc2|].
    split; [by rewrite <- Hs1, <- Hs2|].
    split; [by rewrite <- Hx1, <- Hx2|].
    split; [by rewrite Hn1, Hn2|].
    rewrite Hp1, Hp2. lia.
Qed.

Lemma perform_all_app {W : Type} (os : OS W) (l1 l2 : list action) (m : machine W) :
  snd (perform_all os (l1 ++ l2) m)
  = snd (perform_all os l2 (snd (perform_all os l1 m))).
Proof.
  revert m. induction l1 as [|a l1 IH]; intros m; [done|].
  cbn [app perform_all]. unfold bind.
  destruct (perform os a m) as [[] m1]. apply IH.
Qed.

(** X1.  In the log of any schedule on any platform, the descriptors that
    [socket] returned are, in the same order, the descriptors handed to
    [connect], to [send] and to [close], and there is one per invocation of
    the relay: every socket obtained is closed once, and nothing else is
    ever closed. *)
Theorem schedule_descriptor_balance {W : Type} (os : OS W) (acts : list action)
    (m : machine W) :
  opened (emitted (perform_all os acts) m)
  = connected (emitted (perform_all os acts) m)
  ∧ opened (emitted (perform_all os acts) m)
    = sent_on (emitted (perform_all os acts) m)
  ∧ opened (emitted (perform_all os acts) m)
    = closed (emitted (perform_all os acts) m)
  ∧ length (closed (emitted (perform_all os acts) m)) = relays acts.
Proof.
  destruct (perform_all_log os acts m) as (evs & Ht & _ & Hc & Hs & Hx & Hn & _).
  rewrite (emitted_app _ _ _ Ht). rewrite <- Hx. done.
Qed.

(** X2.  After any schedule on any platform the driver's buffer holds what
    the driver's own writes put there: none of the three functions stores
    to it. *)
Theorem schedule_buffer_only_driver_writes {W : Type} (os : OS W)
    (acts : list action) (m : machine W) :
  heap (mem (snd (perform_all os acts m))) = apply_writes acts (heap (mem m)).
Proof.
  destruct (perform_all_log os acts m) as (evs & _ & Hh & _). exact Hh.
Qed.

(** X3.  The sleep a schedule asks for, on any platform, is one millisecond
    per invocation of the relay and fifteen milliseconds per start of the
    driver; the startup hook itself never sleeps. *)
Theorem schedule_total_pause {W : Type} (os : OS W) (acts : list action)
    (m : machine W) :
  total_pause (emitted (perform_all os acts) m)
  = msec 1 * Z.of_nat (relays acts) + msec 15 * Z.of_nat (driver_starts acts).
Proof.
  destruct (perform_all_log os acts m) as (evs & Ht & _ & _ & _ & _ & _ & Hp).
  by rewrite (emitted_app _ _ _ Ht).
Qed.

(** ** Runs on the reference host *)

Section StartupOnHost.
Import Posix.

Lemma posix_hooks_keep_driver_runs (le : bool) (n : nat) (m : machine sysstate) :
  driver_runs (world (snd (perform_all (os le) (replicate n act_launchFuzzer) m)))
  = driver_runs (world m).
Proof.
  revert m. induction n as [|n IH]; intros m; [done|].
  cbn [replicate perform_all perform]. unfold bind.
  destruct m as [st w tr].
  unfold launchFuzzer, bind, pthread_create, fprintf, ret, syscall.
  cbn [sys os answer mem world trace]. unfold do_pthread_create.
  case_decide; cbn [fst snd do_fprintf]; by rewrite IH.
Qed.

Lemma posix_driver_threads (le : bool) (n : nat) (p : ptr) (m : machine sysstate) :
  driver_runs
    (world (snd (perform_all (os le) (replicate n (act_launchFuzzer2 p)) m)))
  = driver_runs (world m)
      ++ replicate n (driver_args (glob (mem m)) driver_call, fn_fuzzServer).
Proof.
  revert m. induction n as [|n IH]; intros m.
  - cbn. by rewrite app_nil_r.
  - cbn [replicate perform_all perform]. unfold bind.
    destruct m as [st w tr].
    unfold launchFuzzer2, bind, usleep, LLVMFuzzerRunDriver, ret, syscall.
    cbn [sys os answer mem world trace do_usleep do_run_driver fst snd].
    rewrite IH. cbn [world mem driver_runs]. by rewrite <- app_assoc.
Qed.

Lemma thread_actions_replicate (n : nat) (p : ptr) :
  thread_actions (replicate n (fn_launchFuzzer2, p))
  = replicate n (act_launchFuzzer2 p).
Proof. induction n as [|n IH]; [done|]. cbn. by f_equal. Qed.

(** X4.  From start-up on the reference host, with room in the thread table:
    after [n] calls of the startup hook and the run of the threads those
    calls created, the driver has been started [n] times, each time with
    the count 5, the five fixed argument strings and [fuzzServer] as its
    callback. *)
Theorem startup_runs_driver_with_fixed_arguments (le : bool) (n : nat)
    (m : machine sysstate) :
  glob (mem m) = init_globals →
  (length (threads (world m)) + n <= thread_limit (world m))%nat →
  let m1 := snd (perform_all (os le) (replicate n act_launchFuzzer) m) in
  let created := drop (length (threads (world m))) (threads (world m1)) in
  driver_runs (world (snd (perform_all (os le) (thread_actions created) m1)))
  = driver_runs (world m) ++ replicate n (Some (5, fixed_arguments), fn_fuzzServer).
Proof.
  intros Hg Hn m1 created.
  destruct (posix_launchFuzzer_repeat le n m Hn) as [Ht _].
  destruct (perform_all_run (os le) (replicate n act_launchFuzzer) m)
    as (evs & _ & Hg1 & _).
  subst created. fold m1 in Ht, Hg1. rewrite Ht, drop_app_length.
  rewrite thread_actions_replicate, posix_driver_threads.
  rewrite Hg1, Hg. subst m1. by rewrite posix_hooks_keep_driver_runs.
Qed.

Lemma startup_runs_driver_with_fixed_arguments_witness :
  let m1 := snd (perform_all (os true) (replicate 2 act_launchFuzzer) sample_machine) in
  driver_runs
    (world (snd (perform_all (os true) (thread_actions (threads (world m1))) m1)))
  = [(Some (5, fixed_arguments), fn_fuzzServer);
     (Some (5, fixed_arguments), fn_fuzzServer)].
Proof.
  apply (startup_runs_driver_with_fixed_arguments true 2%nat sample_machine).
  - reflexivity.
  - vm_compute. lia.
Defined.

(** X5.  On the reference host, when no server takes connections to
    [[::1]:5555] (none listens, or one listens on another port or on
    another address that is not the wildcard), the relay reaches nobody:
    [connect] reports an error and no connection is accepted.  What follows
    depends on [SIGPIPE]: where it is ignored, [send] reports an error too,
    the descriptor is released and the result is 1; where it has its default
    action, the process ends inside [send]. *)
Theorem relay_without_listener (le ignored : bool) (m : machine sysstate)
    (Data : ptr) (Size : Z) :
  served (listener (world m)) (Some (in6addr_loopback, 5555)) = false →
  next_fd (world m) < fd_limit (world m) →
  socks (world m) !! next_fd (world m) = None →
  outcome_of (fuzzServer (os_sig le ignored) Data Size (started m))
  = (if ignored then Returned 1 else Killed SIGPIPE)
  ∧ accepted (world (fuzzServer (os_sig le ignored) Data Size (started m)).2).1
    = accepted (world m)
  ∧ take 3 (ev_code <$> emitted (fuzzServer (os_sig le ignored) Data Size) (started m))
    = [next_fd (world m); 1; -1]
  ∧ (ignored = true →
     socks (world (fuzzServer (os_sig le ignored) Data Size (started m)).2).1
     = socks (world m)
     ∧ ev_code <$> emitted (fuzzServer (os_sig le ignored) Data Size) (started m)
       = [next_fd (world m); 1; -1; -1; 0; 0]).
Proof.
  intros Hl Hfd Hfresh. destruct m as [st w tr]. cbn [world mem trace] in *.
  unfold outcome_of, emitted, started, fuzzServer, bind, socket, inet_pton,
    connect, send, usleep, close, ret, syscall.
  cbn [sys os_sig with_signals os little_endian answer raises mem world trace
       fst snd].
  unfold do_socket. rewrite decide_True by done.
  cbn [mem world trace fst snd].
  change (do_inet_pton AF_INET6 "::1" ?w) with ((1, Some in6addr_loopback), w).
  cbn [mem world trace fst snd raises].
  change (store_sin6_addr ?a (Some ?b)) with (relay_addr le (Some b)).
  unfold do_connect. cbn [socks set_socks listener accepted next_fd].
  rewrite lookup_insert_eq.
  rewrite decide_False.
  2:{ intros [_ Hd]. rewrite destination_relay_addr in Hd. cbn in Hd.
      rewrite Hl in Hd. discriminate Hd. }
  cbn [mem world trace fst snd raises socks set_socks].
  unfold do_send. cbn [socks set_socks]. rewrite lookup_insert_eq.
  destruct ignored; cbn [orb mem world trace fst snd raises do_usleep].
  - unfold do_close. cbn [socks set_socks]. rewrite lookup_insert_eq.
    cbn [set_socks listener next_fd fd_limit socks accepted threads thread_limit
         output driver_runs clock mem world trace fst snd raises].
    rewrite delete_insert_id by done.
    rewrite <- !app_assoc, drop_app_length. by repeat split.
  - rewrite bool_decide_eq_false_2 by (intros H; by apply H).
    cbn [mem world trace fst snd set_socks accepted].
    rewrite <- !app_assoc, drop_app_length. by repeat split.
Qed.

Lemma relay_without_listener_witness :
  outcome_of (fuzzServer (os_sig true true) (addr_heap 100) 3
                (started sample_machine_no_listener)) = Returned 1
  ∧ outcome_of (fuzzServer (os_sig true false) (addr_heap 100) 3
                  (started sample_machine_no_listener)) = Killed SIGPIPE
  ∧ accepted (world (fuzzServer (os_sig true false) (addr_heap 100) 3
                       (started sample_machine_no_listener)).2).1 = [].
Proof.
  destruct (relay_without_listener true true sample_machine_no_listener
              (addr_heap 100) 3) as (Ho1 & _).
  { vm_compute. reflexivity. }
  { vm_compute. reflexivity. }
  { vm_compute. reflexivity. }
  destruct (relay_without_listener true false sample_machine_no_listener
              (addr_heap 100) 3) as (Ho2 & Ha2 & _).
  { vm_compute. reflexivity. }
  { vm_compute. reflexivity. }
  { vm_compute. reflexivity. }
  split; [exact Ho1|]. split; [exact Ho2 | exact Ha2].
Defined.

(** X6.  On the reference host, when no descriptor is free, the relay goes
    through all its calls with the descriptor [-1]: [socket], [connect],
    [send] and [close] each report an error, the socket table and the
    accepted connections are left as they were, and the result is still
    1. *)
Theorem relay_without_descriptor (le : bool) (m : machine sysstate)
    (Data : ptr) (Size : Z) :
  ¬ next_fd (world m) < fd_limit (world m) →
  socks (world m) !! (-1) = None →
  fst (fuzzServer (os le) Data Size m) = 1
  ∧ accepted (world (snd (fuzzServer (os le) Data Size m))) = accepted (world m)
  ∧ socks (world (snd (fuzzServer (os le) Data Size m))) = socks (world m)
  ∧ next_fd (world (snd (fuzzServer (os le) Data Size m))) = next_fd (world m)
  ∧ ev_code <$> emitted (fuzzServer (os le) Data Size) m = [-1; 1; -1; -1; 0; -1].
Proof.
  intros Hfd Hs. destruct m as [st w tr]. cbn [world mem trace] in *.
  unfold emitted, fuzzServer, bind, socket, inet_pton, connect, send, usleep,
    close, ret, syscall.
  cbn [sys os little_endian answer mem world trace].
  unfold do_socket. rewrite decide_False by tauto.
  cbn [mem world trace snd].
  change (do_inet_pton AF_INET6 "::1" ?w) with ((1, Some in6addr_loopback), w).
  cbn [mem world trace snd].
  unfold do_connect. rewrite Hs. cbn [mem world trace snd].
  unfold do_send. rewrite Hs. cbn [mem world trace snd do_usleep].
  unfold do_close. cbn [socks]. rewrite Hs.
  cbn [mem world trace fst snd accepted socks next_fd].
  rewrite <- !app_assoc, drop_app_length. by repeat split.
Qed.

Lemma relay_without_descriptor_witness :
  fst (fuzzServer (os true) (addr_heap 100) 3 sample_machine_no_fd) = 1
  ∧ ev_code <$> emitted (fuzzServer (os true) (addr_heap 100) 3) sample_machine_no_fd
    = [-1; 1; -1; -1; 0; -1].
Proof.
  destruct (relay_without_descriptor true sample_machine_no_fd (addr_heap 100) 3)
    as (Hr & _ & _ & _ & Hc).
  - vm_compute. intros H. discriminate H.
  - vm_compute. reflexivity.
  - split; [exact Hr | exact Hc].
Defined.

(** X7.  On the reference host, when the thread table is full, the startup
    hook creates no thread ([pthread_create] answers [EAGAIN]) and still
    writes the confirmation message to the diagnostic stream. *)
Theorem launchFuzzer_without_thread (le : bool) (m : machine sysstate) :
  ¬ (length (threads (world m)) < thread_limit (world m))%nat →
  threads (world (snd (launchFuzzer (os le) m))) = threads (world m)
  ∧ output (world (snd (launchFuzzer (os le) m)))
    = output (world m) ++ [(stderr, launch_message)]
  ∧ ev_code <$> emitted (launchFuzzer (os le)) m
    = [EAGAIN; Z.of_nat (String.length launch_message)].
Proof.
  intros Hfull. destruct m as [st w tr]. cbn [world] in Hfull.
  unfold emitted, launchFuzzer, bind, pthread_create, fprintf, ret, syscall.
  cbn [sys os answer mem world trace]. unfold do_pthread_create.
  rewrite decide_False by done.
  cbn [mem world trace fst snd do_fprintf threads output].
  rewrite <- !app_assoc, drop_app_length. by repeat split.
Qed.

Lemma launchFuzzer_without_thread_witness :
  threads (world (snd (launchFuzzer (os true) (boot ∅ (host true 4 0))))) = []
  ∧ output (world (snd (launchFuzzer (os true) (boot ∅ (host true 4 0)))))
    = [(stderr, launch_message)].
Proof.
  destruct (launchFuzzer_without_thread true (boot ∅ (host true 4 0)))
    as (Ht & Ho & _).
  - vm_compute. lia.
  - split; [exact Ht | exact Ho].
Defined.

End StartupOnHost.
